(** * cdk-validator-kics: the KICS validation plugin ([src/plugin.ts])

    A shallow embedding of [KicsValidator] (its constructor, [getArch] and
    [validate]) together with the part of the JavaScript runtime that the
    plugin touches: property access on values produced by [JSON.parse],
    exceptions, the file system, the spawned scanner process and
    [console.error]. *)

From stdpp Require Import base strings list gmap.

Local Open Scope string_scope.
Local Open Scope list_scope.
Set Warnings "-register-all".

(** * JavaScript values and exceptions *)

(** What [JSON.parse] can return, plus [undefined], which is what reading an
    absent property yields.  Numbers are never inspected by the plugin, so an
    integer payload stands for the number. *)
Inductive jsval : Type :=
| JUndefined
| JNull
| JBool (b : bool)
| JNum (n : Z)
| JStr (s : string)
| JArr (items : list jsval)
| JObj (props : list (string * jsval)).

(** The values that can be thrown and land in [catch (e)]. *)
Inductive exn : Type :=
| Error (message : string)
| TypeError (message : string)
| SyntaxError (message : string)
| SystemError (code : string).

Definition result (A : Type) : Type := exn + A.

Definition bind_result {A B} (r : result A) (k : A → result B) : result B :=
  match r with
  | inl e => inl e
  | inr a => k a
  end.

Notation "x <- r ;; k" := (bind_result r (fun x => k))
  (at level 100, r at next level, right associativity).

(** [traverse f xs] is [xs.map(f)] for a callback that may throw: elements are
    visited left to right and the first exception aborts the whole call. *)
Fixpoint traverse {A B} (f : A → result B) (xs : list A) : result (list B) :=
  match xs with
  | [] => inr []
  | x :: rest =>
      y <- f x ;;
      ys <- traverse f rest ;;
      inr (y :: ys)
  end.

(** Property lookup in a parsed object: the first binding of the key. *)
Fixpoint own_prop (props : list (string * jsval)) (key : string) : jsval :=
  match props with
  | [] => JUndefined
  | (k, v) :: rest => if String.eqb k key then v else own_prop rest key
  end.

(** [v.key] for the property names the plugin reads ([queries], [files],
    [query_url], ...): none of them is inherited from a prototype, so on
    anything but an object with that own property the read gives
    [undefined]; on [null] and [undefined] it throws. *)
Definition get_prop (v : jsval) (key : string) : result jsval :=
  match v with
  | JUndefined => inl (TypeError ("Cannot read properties of undefined (reading '" +:+ key +:+ "')"))
  | JNull => inl (TypeError ("Cannot read properties of null (reading '" +:+ key +:+ "')"))
  | JObj props => inr (own_prop props key)
  | JBool _ | JNum _ | JStr _ | JArr _ => inr JUndefined
  end.

(** [v.method(...)] where [method] is an [Array.prototype] method
    ([forEach], [map]): the elements when [v] is an array.  A value coming
    out of [JSON.parse] holds no function, so every other receiver throws. *)
Definition array_receiver (v : jsval) (method : string) : result (list jsval) :=
  match v with
  | JArr items => inr items
  | JUndefined => inl (TypeError ("Cannot read properties of undefined (reading '" +:+ method +:+ "')"))
  | JNull => inl (TypeError ("Cannot read properties of null (reading '" +:+ method +:+ "')"))
  | JBool _ | JNum _ | JStr _ | JObj _ => inl (TypeError (method +:+ " is not a function"))
  end.

(** The argument check of Node's [path.dirname] and [path.basename]. *)
Definition validateString (v : jsval) (argname : string) : result string :=
  match v with
  | JStr s => inr s
  | _ => inl (TypeError ("The " +:+ argname +:+ " argument must be of type string"))
  end.

(** * The host: Node's [os], [path], [fs], [JSON] and the [exec] helper *)

Record Host : Type := {
  os_platform : string;                  (* os.platform() *)
  os_arch : string;                      (* os.arch() *)
  (* `${os.arch}`, the function itself put in a template literal: Node gives
     os.arch a Symbol.toPrimitive that returns process.arch, so on Node this
     is the same text as os.arch() *)
  os_arch_source : string;
  os_tmpdir : string;                    (* os.tmpdir() *)
  __dirname : string;
  path_join : list string → string;
  path_dirname : string → string;
  path_basename : string → string;
  fs_realpathSync : gmap string string → string → result string;
  (* exec from ./utils: runs the command line, may write files, may throw *)
  exec : list string → gmap string string → result unit * gmap string string;
  JSON_parse : string → result jsval;
}.

(** The world around one call: file contents by path, the command lines
    handed to [exec] so far, and what was passed to [console.error]. *)
Record World : Type := {
  files : gmap string string;
  spawned : list (list string);
  console : list exn;
}.

Definition console_error (e : exn) (w : World) : World :=
  {| files := files w; spawned := spawned w; console := console w ++ [e] |}.

(** [exec(commandLine)] seen from the plugin: the call is recorded and the
    helper acts on the file system. *)
Definition run_exec (h : Host) (commandLine : list string) (w : World)
  : result unit * World :=
  let '(r, files') := exec h commandLine (files w) in
  (r, {| files := files'; spawned := spawned w ++ [commandLine]; console := console w |}).

(** [fs.readFileSync(path, { encoding: 'utf-8' })]. *)
Definition fs_readFileSync (w : World) (path : string) : result string :=
  match files w !! path with
  | Some text => inr text
  | None => inl (SystemError "ENOENT")
  end.

(** * Types of [./private/schema] and of the CDK plugin interface *)

(** Modelled from the spec: the [Severity] enum of [./private/schema], a
    string enum with the members CRITICAL/HIGH/MEDIUM/LOW/INFO. *)
Inductive Severity : Type := CRITICAL | HIGH | MEDIUM | LOW | INFO.

Definition Severity_value (s : Severity) : string :=
  match s with
  | CRITICAL => "CRITICAL"
  | HIGH => "HIGH"
  | MEDIUM => "MEDIUM"
  | LOW => "LOW"
  | INFO => "INFO"
  end.

(** Modelled from the spec: the [QueryCategory] enum of [./private/schema],
    whose members are category names; a member is represented by its string
    value. *)
Definition QueryCategory : Type := string.

Module KicsValidatorProps.
Record t : Type := {
  excludeCategories : option (list QueryCategory);
  excludeQueries : option (list string);
  excludeSeverities : option (list Severity);
  failureSeverities : option (list Severity);
}.

(** The constructor's default argument [{}]. *)
Definition empty : t :=
  {| excludeCategories := None; excludeQueries := None;
     excludeSeverities := None; failureSeverities := None |}.
End KicsValidatorProps.

Record IValidationContext : Type := {
  templatePaths : list string;
}.

Record ViolatingResource : Type := {
  resourceLogicalId : jsval;
  templatePath : string;
  locations : list jsval;
}.

Record ValidationViolationResourceAware : Type := {
  fix_ : jsval;
  ruleName : jsval;
  description : jsval;
  severity : jsval;
  violatingResources : list ViolatingResource;
}.

Record ValidationPluginReport : Type := {
  violations : list ValidationViolationResourceAware;
  success : bool;
}.

(** * [KicsValidator] *)

Record KicsValidator : Type := {
  name : string;
  kics : string;
  excludeQueries : option (list string);
  excludeCategories : option (list string);
  excludeSeverities : option (list string);
  failureSeverities : list string;
}.

Definition getArch (h : Host) : result string :=
  if String.eqb (os_arch h) "x64" then inr "amd64"
  else if String.eqb (os_arch h) "arm64" then inr "arm64"
  else inl (Error ("Architecture " +:+ os_arch_source h +:+ " is not supported")).

Definition new_KicsValidator (h : Host) (props : KicsValidatorProps.t)
  : result KicsValidator :=
  let platform :=
    if String.eqb (os_platform h) "win32" then "windows" else os_platform h in
  arch <- getArch h ;;
  inr {| name := "cdk-validator-kics";
         excludeQueries := KicsValidatorProps.excludeQueries props;
         excludeCategories := KicsValidatorProps.excludeCategories props;
         excludeSeverities :=
           map Severity_value <$> KicsValidatorProps.excludeSeverities props;
         failureSeverities :=
           match KicsValidatorProps.failureSeverities props with
           | Some severities => map Severity_value severities
           | None => [Severity_value HIGH; Severity_value MEDIUM]
           end;
         kics :=
           path_join h [__dirname h; ".."; "bin"; platform +:+ "_" +:+ arch;
                        if String.eqb platform "windows" then "kics.exe" else "kics"] |}.

(** A double-quote character. *)
Definition dquote : string := String (Ascii.ascii_of_nat 34) "".

(** [quoted "json"] is the literal ['"json"'], quotes included. *)
Definition quoted (s : string) : string := dquote +:+ s +:+ dquote.

(** The [flags] array of [validate]. *)
Definition flags (h : Host) (this : KicsValidator) (context : IValidationContext)
    (reportDir : string) : list string :=
  [kics this; "scan"]
  ++ flat_map (fun template => ["--path"; template]) (templatePaths context)
  ++ ["--output-path"; reportDir;
      "--output-name"; name this;
      "--libraries-path"; path_join h [__dirname h; ".."; "assets"; "libraries"];
      "--queries-path"; path_join h [__dirname h; ".."; "assets"; "queries"]]
  ++ flat_map (fun severity => ["--fail-on"; severity]) (failureSeverities this)
  ++ match excludeQueries this with
     | Some queries => flat_map (fun query => ["--exclude-queries"; query]) queries
     | None => []
     end
  ++ match excludeCategories this with
     | Some categories =>
         flat_map (fun category => ["--exclude-categories"; category]) categories
     | None => []
     end
  ++ match excludeSeverities this with
     | Some severities =>
         flat_map (fun severity => ["--exclude-severities"; severity]) severities
     | None => []
     end
  ++ ["--ci"; "--report-formats"; quoted "json"].

(** The callback of [query.files.map]: one violating resource per file
    match.  [path.dirname] and [path.basename] reject a [file_name] that is
    not a string. *)
Definition violatingResource_of (h : Host) (file : jsval) : result ViolatingResource :=
  resource_name <- get_prop file "resource_name" ;;
  file_name <- get_prop file "file_name" ;;
  file_name <- validateString file_name "path" ;;
  search_key <- get_prop file "search_key" ;;
  inr {| resourceLogicalId := resource_name;
         templatePath :=
           path_join h [path_dirname h file_name; path_basename h file_name];
         locations := [search_key] |}.

(** The object literal handed to [violations.push]: it is evaluated in full
    before the push happens. *)
Definition violation_of (h : Host) (query : jsval)
  : result ValidationViolationResourceAware :=
  query_url <- get_prop query "query_url" ;;
  query_name <- get_prop query "query_name" ;;
  query_description <- get_prop query "description" ;;
  query_severity <- get_prop query "severity" ;;
  query_files <- get_prop query "files" ;;
  query_files <- array_receiver query_files "map" ;;
  resources <- traverse (violatingResource_of h) query_files ;;
  inr {| fix_ := query_url;
         ruleName := query_name;
         description := query_description;
         severity := query_severity;
         violatingResources := resources |}.

(** [queries.forEach((query) => { success = false; violations.push(...) })]
    acting on the two variables of [validate] that the callback captures.
    The third component is the exception that ended the loop, if any; the
    variables then keep what they held when it was thrown. *)
Definition forEach_query (h : Host)
  : list jsval → bool → list ValidationViolationResourceAware →
    bool * list ValidationViolationResourceAware * option exn :=
  fix forEach (queries : list jsval) (success : bool)
      (violations : list ValidationViolationResourceAware) :=
    match queries with
    | [] => (success, violations, None)
    | query :: rest =>
        let success := false in
        match violation_of h query with
        | inl e => (success, violations, Some e)
        | inr violation => forEach rest success (violations ++ [violation])
        end
    end.

(** The first three statements of the [try] block: run the scanner, read the
    report it wrote, parse it. *)
Definition load_report (h : Host) (flags : list string) (reportPath : string)
    (w : World) : result jsval * World :=
  match run_exec h flags w with
  | (inl e, w) => (inl e, w)
  | (inr _, w) =>
      (results <- fs_readFileSync w (reportPath +:+ ".json") ;; JSON_parse h results, w)
  end.

(** The whole [try] block, started with [success = true] and
    [violations = []]. *)
Definition try_block (h : Host) (flags : list string) (reportPath : string)
    (w : World)
  : bool * list ValidationViolationResourceAware * option exn * World :=
  let success := true in
  let violations := [] in
  match load_report h flags reportPath w with
  | (inl e, w) => (success, violations, Some e, w)
  | (inr output, w) =>
      match (queries <- get_prop output "queries" ;; array_receiver queries "forEach") with
      | inl e => (success, violations, Some e, w)
      | inr queries => (forEach_query h queries success violations, w)
      end
  end.

(** [validate(context)].  An exception of [fs.realpathSync], which is called
    before the [try], is the only one that leaves the method. *)
Definition validate (h : Host) (this : KicsValidator) (context : IValidationContext)
    (w : World) : result ValidationPluginReport * World :=
  match fs_realpathSync h (files w) (os_tmpdir h) with
  | inl e => (inl e, w)
  | inr reportDir =>
      let reportPath := path_join h [reportDir; name this] in
      let flags := flags h this context reportDir in
      match try_block h flags reportPath w with
      | (success, violations, None, w) =>
          (inr {| violations := violations; success := success |}, w)
      | (_, violations, Some e, w) =>
          (inr {| violations := violations; success := false |}, console_error e w)
      end
  end.

(** * The report as [./private/schema] types it *)

(** Modelled from the spec: the [KicsSchema] type of [./private/schema],
    reduced to the properties the plugin reads.  A report is a mapping with a
    [queries] list; each query has a name, a documentation URL, a
    description, a severity and a list of file matches; each file match has a
    file path, a resource name and a search key.  The severity is kept as the
    string found in the report. *)
Module KicsSchema.
Record file : Type := {
  file_name : string;
  resource_name : string;
  search_key : string;
}.

Record query : Type := {
  query_name : string;
  query_url : string;
  description : string;
  severity : string;
  files : list file;
}.

Record t : Type := {
  queries : list query;
}.
End KicsSchema.

Definition as_string (v : jsval) : option string :=
  match v with
  | JStr s => Some s
  | _ => None
  end.

Definition as_array (v : jsval) : option (list jsval) :=
  match v with
  | JArr items => Some items
  | _ => None
  end.

Definition as_object (v : jsval) : option (list (string * jsval)) :=
  match v with
  | JObj props => Some props
  | _ => None
  end.

(** The typed reading of a parsed value: [Some] exactly when the value has
    the shape the schema declares (other properties may be present). *)
Definition as_KicsFile (v : jsval) : option KicsSchema.file :=
  props ← as_object v;
  file_name ← as_string (own_prop props "file_name");
  resource_name ← as_string (own_prop props "resource_name");
  search_key ← as_string (own_prop props "search_key");
  Some {| KicsSchema.file_name := file_name;
          KicsSchema.resource_name := resource_name;
          KicsSchema.search_key := search_key |}.

Definition as_KicsQuery (v : jsval) : option KicsSchema.query :=
  props ← as_object v;
  query_name ← as_string (own_prop props "query_name");
  query_url ← as_string (own_prop props "query_url");
  description ← as_string (own_prop props "description");
  severity ← as_string (own_prop props "severity");
  files ← as_array (own_prop props "files");
  files ← mapM as_KicsFile files;
  Some {| KicsSchema.query_name := query_name;
          KicsSchema.query_url := query_url;
          KicsSchema.description := description;
          KicsSchema.severity := severity;
          KicsSchema.files := files |}.

Definition as_KicsSchema (v : jsval) : option KicsSchema.t :=
  props ← as_object v;
  queries ← as_array (own_prop props "queries");
  queries ← mapM as_KicsQuery queries;
  Some {| KicsSchema.queries := queries |}.

(** * Reading a command line *)

(** The values given to option [flag] on the command line that follows the
    binary and the [scan] subcommand: every option takes the next argument
    as its value, except the switch [--ci], which takes none. *)
Fixpoint option_values (flag : string) (args : list string) : list string :=
  match args with
  | [] => []
  | opt :: rest =>
      if String.eqb opt "--ci" then option_values flag rest
      else
        match rest with
        | [] => []
        | value :: rest' =>
            if String.eqb opt flag then value :: option_values flag rest'
            else option_values flag rest'
        end
  end.

Definition flag_values (flag : string) (commandLine : list string) : list string :=
  option_values flag (drop 2 commandLine).

(** * A POSIX host *)

(** Node's [path.posix] functions on strings, for running the plugin on
    concrete inputs.  The statements below hold for any [Host]. *)
Module posix.
Definition is_slash (c : Ascii.ascii) : bool :=
  Ascii.eqb c (Ascii.ascii_of_nat 47).

Fixpoint segments (cs : list Ascii.ascii) : list (list Ascii.ascii) :=
  match cs with
  | [] => [[]]
  | c :: rest =>
      if is_slash c then [] :: segments rest
      else
        match segments rest with
        | seg :: segs => (c :: seg) :: segs
        | [] => [[c]]
        end
  end.

(** One step of [normalizeString]; the stack holds the segments kept so
    far, last one first. *)
Definition normalize_step (allowAboveRoot : bool) (stack : list string)
    (seg : string) : list string :=
  if String.eqb seg "" || String.eqb seg "." then stack
  else if String.eqb seg ".." then
    match stack with
    | top :: below =>
        if String.eqb top ".." then seg :: stack else below
    | [] => if allowAboveRoot then [seg] else []
    end
  else seg :: stack.

Definition normalize (path : string) : string :=
  let cs := String.list_ascii_of_string path in
  match cs with
  | [] => "."
  | first :: _ =>
      let isAbsolute := is_slash first in
      let trailingSeparator :=
        match rev cs with
        | last :: _ => is_slash last
        | [] => false
        end in
      let segs := map String.string_of_list_ascii (segments cs) in
      let kept := rev (fold_left (normalize_step (negb isAbsolute)) segs []) in
      let path := String.concat "/" kept in
      if String.eqb path "" then
        if isAbsolute then "/" else if trailingSeparator then "./" else "."
      else
        (if isAbsolute then "/" else "")
        +:+ path +:+ (if trailingSeparator then "/" else "")
  end.

Definition join (paths : list string) : string :=
  match filter (fun arg => arg ≠ "") paths with
  | [] => "."
  | parts => normalize (String.concat "/" parts)
  end.

Fixpoint drop_while {A} (p : A → bool) (xs : list A) : list A :=
  match xs with
  | [] => []
  | x :: rest => if p x then drop_while p rest else xs
  end.

Fixpoint take_while {A} (p : A → bool) (xs : list A) : list A :=
  match xs with
  | [] => []
  | x :: rest => if p x then x :: take_while p rest else []
  end.

Definition dirname (path : string) : string :=
  match String.list_ascii_of_string path with
  | [] => "."
  | first :: rest =>
      let hasRoot := is_slash first in
      let below :=
        drop_while (fun c => negb (is_slash c)) (drop_while is_slash (rev rest)) in
      match below with
      | [] => if hasRoot then "/" else "."
      | _ :: before =>
          match before with
          | [] => if hasRoot then "//" else String first ""
          | _ => String.string_of_list_ascii (first :: rev before)
          end
      end
  end.

Definition basename (path : string) : string :=
  let backwards := drop_while is_slash (rev (String.list_ascii_of_string path)) in
  String.string_of_list_ascii (rev (take_while (fun c => negb (is_slash c)) backwards)).
End posix.

(** A Linux machine on x64 where the package sits in [/opt/plugin/lib]. *)
Definition linux_host
    (exec : list string → gmap string string → result unit * gmap string string)
    (JSON_parse : string → result jsval) : Host :=
  {| os_platform := "linux";
     os_arch := "x64";
     os_arch_source := "x64";
     os_tmpdir := "/tmp";
     __dirname := "/opt/plugin/lib";
     path_join := posix.join;
     path_dirname := posix.dirname;
     path_basename := posix.basename;
     fs_realpathSync := fun _ path => inr path;
     exec := exec;
     JSON_parse := JSON_parse |}.

(** A scanner run that leaves [text] in the report file. *)
Definition exec_writing (path text : string)
  : list string → gmap string string → result unit * gmap string string :=
  fun _ files => (inr (), <[path := text]> files).

(** A scanner run that fails and writes nothing. *)
Definition exec_failing (e : exn)
  : list string → gmap string string → result unit * gmap string string :=
  fun _ files => (inl e, files).

(** [JSON.parse] restricted to a table of known documents; any other text is
    a syntax error. *)
Definition parse_table (documents : list (string * jsval)) (text : string)
  : result jsval :=
  match list_find (fun d => String.eqb d.1 text = true) documents with
  | Some (_, (_, value)) => inr value
  | None => inl (SyntaxError "Unexpected token")
  end.

Definition empty_world : World :=
  {| files := ∅; spawned := []; console := [] |}.

Definition report_path : string := "/tmp/cdk-validator-kics.json".

(** * The statements' vocabulary *)

(** The Finding Mapper as the specification words it: a pure function from
    the typed findings to violations, one violating resource per file
    match. *)
Definition mapFileMatch (h : Host) (m : KicsSchema.file) : ViolatingResource :=
  {| resourceLogicalId := JStr (KicsSchema.resource_name m);
     templatePath :=
       path_join h [path_dirname h (KicsSchema.file_name m);
                    path_basename h (KicsSchema.file_name m)];
     locations := [JStr (KicsSchema.search_key m)] |}.

Definition mapFinding (h : Host) (f : KicsSchema.query)
  : ValidationViolationResourceAware :=
  {| fix_ := JStr (KicsSchema.query_url f);
     ruleName := JStr (KicsSchema.query_name f);
     description := JStr (KicsSchema.description f);
     severity := JStr (KicsSchema.severity f);
     violatingResources := map (mapFileMatch h) (KicsSchema.files f) |}.

(** The ways a scan breaks before any finding is mapped: the invocation
    throws, the report file is not there afterwards, or its text does not
    parse.  [e] is the exception raised. *)
Inductive scan_error (h : Host) (commandLine : list string) (reportFile : string)
    (w : World) : exn → Prop :=
| InvocationError e files' :
    exec h commandLine (files w) = (inl e, files') →
    scan_error h commandLine reportFile w e
| ReportMissing u files' :
    exec h commandLine (files w) = (inr u, files') →
    files' !! reportFile = None →
    scan_error h commandLine reportFile w (SystemError "ENOENT")
| ReportMalformed u files' text e :
    exec h commandLine (files w) = (inr u, files') →
    files' !! reportFile = Some text →
    JSON_parse h text = inl e →
    scan_error h commandLine reportFile w e.

(** The world once [exec] has returned or thrown. *)
Definition after_exec (h : Host) (commandLine : list string) (w : World) : World :=
  (run_exec h commandLine w).2.

(** The architectures [getArch] has a case for. *)
Definition supported_arch (arch : string) : bool :=
  String.eqb arch "x64" || String.eqb arch "arm64".

(** The same host reporting another CPU architecture. *)
Definition with_arch (arch source : string) (h : Host) : Host :=
  {| os_platform := os_platform h;
     os_arch := arch;
     os_arch_source := source;
     os_tmpdir := os_tmpdir h;
     __dirname := __dirname h;
     path_join := path_join h;
     path_dirname := path_dirname h;
     path_basename := path_basename h;
     fs_realpathSync := fs_realpathSync h;
     exec := exec h;
     JSON_parse := JSON_parse h |}.

(** * Sample runs *)

Definition sample_validator : KicsValidator :=
  {| name := "cdk-validator-kics";
     kics := "/opt/plugin/bin/linux_amd64/kics";
     excludeQueries := None;
     excludeCategories := None;
     excludeSeverities := None;
     failureSeverities := ["HIGH"; "MEDIUM"] |}.

Definition sample_context : IValidationContext :=
  {| templatePaths := ["/a/template.json"] |}.

Definition file_match (resource file key : string) : jsval :=
  JObj [("file_name", JStr file); ("resource_name", JStr resource);
        ("search_key", JStr key); ("line", JNum 12)].

Definition finding (name sev : string) (matches : list jsval) : jsval :=
  JObj [("query_name", JStr name);
        ("query_id", JStr "a227ec01-f97a-4084-91a4-47b350c1db54");
        ("query_url", JStr "https://docs.kics.io");
        ("severity", JStr sev);
        ("description", JStr "S3 bucket without versioning");
        ("files", JArr matches)].

Definition report_of (queries : list jsval) : jsval :=
  JObj [("kics_version", JStr "v1.7.0"); ("queries", JArr queries)].

Definition bucketA : jsval := file_match "BucketA" "/a/template.json" "Resources.BucketA".
Definition bucketB : jsval := file_match "BucketB" "/a/template.json" "Resources.BucketB".

(** A finding whose [files] property is absent. *)
Definition finding_without_files : jsval :=
  JObj [("query_name", JStr "Orphan"); ("query_url", JStr "https://docs.kics.io");
        ("severity", JStr "LOW"); ("description", JStr "no file list")].

(** The host of a scan whose report parses to [output]. *)
Definition scanning_host (output : jsval) : Host :=
  linux_host (exec_writing report_path "report") (parse_table [("report", output)]).

Definition scanned_world (output : jsval) : World :=
  after_exec (scanning_host output)
    (flags (scanning_host output) sample_validator sample_context "/tmp")
    empty_world.

Definition empty_report : jsval := report_of [].

(** One finding with two file matches. *)
Definition two_match_report : jsval :=
  report_of [finding "S3 Bucket Without Versioning" "HIGH" [bucketA; bucketB]].

Definition typed_match (resource key : string) : KicsSchema.file :=
  {| KicsSchema.file_name := "/a/template.json";
     KicsSchema.resource_name := resource;
     KicsSchema.search_key := key |}.

Definition typed_finding (name sev : string) (matches : list KicsSchema.file)
  : KicsSchema.query :=
  {| KicsSchema.query_name := name;
     KicsSchema.query_url := "https://docs.kics.io";
     KicsSchema.description := "S3 bucket without versioning";
     KicsSchema.severity := sev;
     KicsSchema.files := matches |}.

Definition two_match_typed : KicsSchema.t :=
  {| KicsSchema.queries :=
       [typed_finding "S3 Bucket Without Versioning" "HIGH"
          [typed_match "BucketA" "Resources.BucketA";
           typed_match "BucketB" "Resources.BucketB"]] |}.

(** Two findings, of different severities. *)
Definition two_finding_report : jsval :=
  report_of [finding "S3 Bucket Without Versioning" "HIGH" [bucketA; bucketB];
             finding "S3 Bucket Logging Disabled" "INFO" [bucketB]].

Definition two_finding_typed : KicsSchema.t :=
  {| KicsSchema.queries :=
       [typed_finding "S3 Bucket Without Versioning" "HIGH"
          [typed_match "BucketA" "Resources.BucketA";
           typed_match "BucketB" "Resources.BucketB"];
        typed_finding "S3 Bucket Logging Disabled" "INFO"
          [typed_match "BucketB" "Resources.BucketB"]] |}.

(** A well-formed finding, then one without [files], then another
    well-formed one. *)
Definition broken_report : jsval :=
  report_of [finding "S3 Bucket Without Versioning" "HIGH" [bucketA];
             finding_without_files;
             finding "S3 Bucket Logging Disabled" "INFO" [bucketB]].

(** A host whose scanner exits without writing a report. *)
Definition silent_host : Host :=
  linux_host (fun _ files => (inr (), files)) (parse_table []).

(** A configuration with two excluded queries, no category list and two
    excluded severities. *)
Definition excluding_props : KicsValidatorProps.t :=
  {| KicsValidatorProps.excludeCategories := None;
     KicsValidatorProps.excludeQueries :=
       Some ["a227ec01-f97a-4084-91a4-47b350c1db54"; "--fail-on"];
     KicsValidatorProps.excludeSeverities := Some [LOW; INFO];
     KicsValidatorProps.failureSeverities := None |}.

Definition excluding_validator : KicsValidator :=
  {| name := "cdk-validator-kics";
     kics := "/opt/plugin/bin/linux_amd64/kics";
     excludeQueries := Some ["a227ec01-f97a-4084-91a4-47b350c1db54"; "--fail-on"];
     excludeCategories := None;
     excludeSeverities := Some ["LOW"; "INFO"];
     failureSeverities := ["HIGH"; "MEDIUM"] |}.



(** The same host reporting another operating system (the path functions
    stay as they are). *)
Definition with_platform (platform : string) (h : Host) : Host :=
  {| os_platform := platform;
     os_arch := os_arch h;
     os_arch_source := os_arch_source h;
     os_tmpdir := os_tmpdir h;
     __dirname := __dirname h;
     path_join := path_join h;
     path_dirname := path_dirname h;
     path_basename := path_basename h;
     fs_realpathSync := fs_realpathSync h;
     exec := exec h;
     JSON_parse := JSON_parse h |}.

(** The directory and file name of the bundled binary, as the constructor
    derives them from [os.platform()] and [os.arch()]. *)
Definition binary_dir (platform arch : string) : string :=
  (if String.eqb platform "win32" then "windows" else platform)
  +:+ "_" +:+ (if String.eqb arch "x64" then "amd64" else "arm64").

Definition binary_name (platform : string) : string :=
  if String.eqb platform "win32" || String.eqb platform "windows"
  then "kics.exe" else "kics".

(** A configuration that names an empty list of failure severities. *)
Definition lenient_props : KicsValidatorProps.t :=
  {| KicsValidatorProps.excludeCategories := None;
     KicsValidatorProps.excludeQueries := None;
     KicsValidatorProps.excludeSeverities := None;
     KicsValidatorProps.failureSeverities := Some [] |}.

Definition lenient_validator : KicsValidator :=
  {| name := "cdk-validator-kics";
     kics := "/opt/plugin/bin/linux_amd64/kics";
     excludeQueries := None;
     excludeCategories := None;
     excludeSeverities := None;
     failureSeverities := [] |}.

(** A host on which the temporary directory cannot be resolved. *)
Definition no_tmpdir_host : Host :=
  {| os_platform := "linux";
     os_arch := "x64";
     os_arch_source := "x64";
     os_tmpdir := "/tmp";
     __dirname := "/opt/plugin/lib";
     path_join := posix.join;
     path_dirname := posix.dirname;
     path_basename := posix.basename;
     fs_realpathSync := fun _ _ => inl (SystemError "ENOENT");
     exec := exec_writing report_path "report";
     JSON_parse := parse_table [("report", empty_report)] |}.

(** A Windows machine on arm64. *)
Definition windows_arm_host : Host :=
  with_platform "win32"
    (with_arch "arm64" "arm64" silent_host).

Definition windows_arm_validator : KicsValidator :=
  {| name := "cdk-validator-kics";
     kics := "/opt/plugin/bin/windows_arm64/kics.exe";
     excludeQueries := None;
     excludeCategories := None;
     excludeSeverities := None;
     failureSeverities := ["HIGH"; "MEDIUM"] |}.

(** A host whose scanner exits normally without writing anything, and a
    world in which an earlier run has left a report. *)
Definition idle_host : Host :=
  linux_host (fun _ files => (inr (), files))
    (parse_table [("report", two_match_report)]).

Definition stale_world : World :=
  {| files := {[ report_path := "report" ]}; spawned := []; console := [] |}.

(** * Exceptions and [Array.prototype.map] *)

Lemma bind_result_inr {A B} (r : result A) (k : A → result B) (b : B) :
  bind_result r k = inr b ↔ ∃ a, r = inr a ∧ k a = inr b.
Proof.
  destruct r as [e|a]; simpl; split.
  - discriminate.
  - intros (a & Ha & _). discriminate.
  - eauto.
  - intros (a' & Ha & Hk). congruence.
Qed.

Lemma traverse_inr_cons {A B} (f : A → result B) x xs ys :
  traverse f (x :: xs) = inr ys ↔
  ∃ y ys', f x = inr y ∧ traverse f xs = inr ys' ∧ ys = y :: ys'.
Proof.
  simpl. rewrite bind_result_inr. split.
  - intros (y & Hy & Hrest). apply bind_result_inr in Hrest as (ys' & Hys' & Heq).
    exists y, ys'. split_and!; congruence.
  - intros (y & ys' & Hy & Hys' & ->). exists y. split; [done|].
    by rewrite Hys'.
Qed.

Lemma traverse_length {A B} (f : A → result B) xs ys :
  traverse f xs = inr ys → length ys = length xs.
Proof.
  revert ys. induction xs as [|x xs IH]; intros ys.
  - simpl. intros [= <-]. done.
  - rewrite traverse_inr_cons. intros (y & ys' & _ & Hys' & ->).
    simpl. f_equal. by apply IH.
Qed.

(** A typed list maps through [traverse] when each element does. *)
Lemma traverse_typed {A B} (decode : jsval → option A) (f : jsval → result B)
    (g : A → B) (vs : list jsval) (xs : list A) :
  (∀ v x, decode v = Some x → f v = inr (g x)) →
  mapM decode vs = Some xs →
  traverse f vs = inr (map g xs).
Proof.
  intros Hf. rewrite mapM_Some. induction 1 as [|v x vs xs Hv _ IH]; [done|].
  simpl. by rewrite (Hf _ _ Hv), IH.
Qed.

(** * The Finding Mapper on typed input *)

Section mapper.
Variable h : Host.

Lemma violatingResource_of_typed v m :
  as_KicsFile v = Some m → violatingResource_of h v = inr (mapFileMatch h m).
Proof.
  unfold as_KicsFile, violatingResource_of.
  destruct v as [| | | | |?|props]; simpl; try discriminate.
  destruct (own_prop props "file_name"); simpl; try discriminate.
  destruct (own_prop props "resource_name"); simpl; try discriminate.
  destruct (own_prop props "search_key"); simpl; try discriminate.
  by intros [= <-].
Qed.

Lemma violation_of_typed v q :
  as_KicsQuery v = Some q → violation_of h v = inr (mapFinding h q).
Proof.
  unfold as_KicsQuery, violation_of.
  destruct v as [| | | | |?|props]; simpl; try discriminate.
  destruct (own_prop props "query_name"); simpl; try discriminate.
  destruct (own_prop props "query_url"); simpl; try discriminate.
  destruct (own_prop props "description"); simpl; try discriminate.
  destruct (own_prop props "severity"); simpl; try discriminate.
  destruct (own_prop props "files") as [| | | | |items|?]; simpl; try discriminate.
  destruct (mapM as_KicsFile items) as [ms|] eqn:Hms; simpl; try discriminate.
  intros [= <-].
  by rewrite (traverse_typed _ _ _ _ _ violatingResource_of_typed Hms).
Qed.

(** The loop over queries that all map: every violation is appended, in
    order, and [success] is cleared as soon as there is one query. *)
Lemma forEach_query_all qs vs success violations :
  traverse (violation_of h) qs = inr vs →
  forEach_query h qs success violations
  = (match qs with [] => success | _ => false end, violations ++ vs, None).
Proof.
  revert vs success violations.
  induction qs as [|q qs IH]; intros vs success violations.
  - simpl. intros [= <-]. by rewrite app_nil_r.
  - rewrite traverse_inr_cons. intros (v & vs' & Hv & Hvs' & ->).
    simpl. rewrite Hv, (IH _ _ _ Hvs'), <- app_assoc. simpl.
    by destruct qs.
Qed.

(** The loop stopped by a query whose mapping throws: what was pushed
    before stays. *)
Lemma forEach_query_throw good bad rest vs e success violations :
  traverse (violation_of h) good = inr vs →
  violation_of h bad = inl e →
  forEach_query h (good ++ bad :: rest) success violations
  = (false, violations ++ vs, Some e).
Proof.
  revert vs success violations.
  induction good as [|q qs IH]; intros vs success violations.
  - simpl. intros [= <-] ->. by rewrite app_nil_r.
  - rewrite traverse_inr_cons. intros (v & vs' & Hv & Hvs' & ->) Hbad.
    simpl. rewrite Hv, (IH _ _ _ Hvs' Hbad), <- app_assoc. done.
Qed.

(** Once [success] is cleared the loop never sets it again. *)
Lemma forEach_query_cleared qs violations :
  (forEach_query h qs false violations).1.1 = false.
Proof.
  revert violations. induction qs as [|q qs IH]; intros violations; [done|].
  simpl. destruct (violation_of h q); [done|]. apply IH.
Qed.

(** [success] survives the loop only when the loop had nothing to do. *)
Lemma forEach_query_success qs success violations violations' thrown :
  forEach_query h qs success violations = (true, violations', thrown) →
  qs = [] ∧ violations' = violations ∧ thrown = None.
Proof.
  destruct qs as [|q qs].
  - simpl. intros [= _ <- <-]. done.
  - intros Hloop. pose proof (forEach_query_cleared (q :: qs) violations) as Hc.
    simpl in Hloop, Hc. rewrite Hloop in Hc. discriminate.
Qed.
End mapper.

(** * [validate] *)

Section validate.
Variable h : Host.
Variable this : KicsValidator.
Variable context : IValidationContext.

Lemma load_report_scan_error commandLine reportPath w e :
  scan_error h commandLine (reportPath +:+ ".json") w e →
  load_report h commandLine reportPath w = (inl e, after_exec h commandLine w).
Proof.
  unfold load_report, after_exec, run_exec, fs_readFileSync.
  destruct 1 as [e files' Hexec | u files' Hexec Hfile | u files' text e Hexec Hfile Hparse];
    rewrite Hexec; simpl.
  - done.
  - rewrite Hfile. reflexivity.
  - rewrite Hfile. simpl. by rewrite Hparse.
Qed.

Lemma after_exec_spawned commandLine w :
  spawned (after_exec h commandLine w) = spawned w ++ [commandLine].
Proof. unfold after_exec, run_exec. by destruct (exec h commandLine (files w)). Qed.

Lemma after_exec_console commandLine w :
  console (after_exec h commandLine w) = console w.
Proof. unfold after_exec, run_exec. by destruct (exec h commandLine (files w)). Qed.

Lemma load_report_world commandLine reportPath w :
  (load_report h commandLine reportPath w).2 = after_exec h commandLine w.
Proof.
  unfold load_report, after_exec.
  by destruct (run_exec h commandLine w) as [[e|u] w1].
Qed.

(** [validate] once the report is parsed and its [queries] is an array:
    all that is left is the loop. *)
Lemma validate_parsed w reportDir output w1 qs :
  fs_realpathSync h (files w) (os_tmpdir h) = inr reportDir →
  load_report h (flags h this context reportDir)
    (path_join h [reportDir; name this]) w = (inr output, w1) →
  get_prop output "queries" = inr (JArr qs) →
  validate h this context w
  = match forEach_query h qs true [] with
    | (success, violations, None) =>
        (inr {| violations := violations; success := success |}, w1)
    | (_, violations, Some e) =>
        (inr {| violations := violations; success := false |}, console_error e w1)
    end.
Proof.
  intros Hdir Hload Hqs. unfold validate, try_block.
  rewrite Hdir. simpl. rewrite Hload, Hqs. simpl.
  by destruct (forEach_query h qs true []) as [[success violations] [e|]].
Qed.

(** [validate] when the [try] block throws before the loop starts. *)
Lemma validate_not_loaded w reportDir e w1 :
  fs_realpathSync h (files w) (os_tmpdir h) = inr reportDir →
  load_report h (flags h this context reportDir)
    (path_join h [reportDir; name this]) w = (inl e, w1) →
  validate h this context w
  = (inr {| violations := []; success := false |}, console_error e w1).
Proof.
  intros Hdir Hload. unfold validate, try_block.
  rewrite Hdir. simpl. by rewrite Hload.
Qed.

Lemma as_KicsSchema_queries output report :
  as_KicsSchema output = Some report →
  ∃ qs, get_prop output "queries" = inr (JArr qs)
        ∧ mapM as_KicsQuery qs = Some (KicsSchema.queries report).
Proof.
  unfold as_KicsSchema.
  destruct output as [| | | | |?|props]; simpl; try discriminate.
  destruct (own_prop props "queries") as [| | | | |qs|?]; simpl; try discriminate.
  destruct (mapM as_KicsQuery qs) as [fs|] eqn:Hfs; simpl; try discriminate.
  intros [= <-]. eauto.
Qed.

(** [validate] on a report that has the schema's shape. *)
Lemma validate_typed w reportDir output w1 report :
  fs_realpathSync h (files w) (os_tmpdir h) = inr reportDir →
  load_report h (flags h this context reportDir)
    (path_join h [reportDir; name this]) w = (inr output, w1) →
  as_KicsSchema output = Some report →
  validate h this context w
  = (inr {| violations := map (mapFinding h) (KicsSchema.queries report);
            success := match KicsSchema.queries report with
                       | [] => true
                       | _ => false
                       end |}, w1).
Proof.
  intros Hdir Hload Htyped.
  destruct (as_KicsSchema_queries _ _ Htyped) as (qs & Hqs & Hfs).
  rewrite (validate_parsed _ _ _ _ _ Hdir Hload Hqs).
  rewrite (forEach_query_all h qs (map (mapFinding h) (KicsSchema.queries report))).
  - simpl. apply mapM_Some, Forall2_length in Hfs.
    by destruct qs, (KicsSchema.queries report).
  - by apply traverse_typed with (decode := as_KicsQuery); [apply violation_of_typed|].
Qed.
End validate.

(** * The claims about [validate] *)

(** C1. On every parsed report that has the schema's shape, the violations
    returned by [validate] are the findings mapped one by one, in input
    order: the i-th violation is [mapFinding] of the i-th query, with [fix]
    from [query_url], [ruleName] from [query_name], [description] and
    [severity] copied, and one violating resource per file match
    ([resourceLogicalId] from [resource_name], [templatePath] the re-joined
    dirname and basename of [file_name], [locations] the one-element list
    holding [search_key]). *)
Theorem validate_maps_findings_in_order
    (h : Host) (this : KicsValidator) (context : IValidationContext) (w : World)
    (reportDir : string) (output : jsval) (w1 : World) (report : KicsSchema.t) :
  fs_realpathSync h (files w) (os_tmpdir h) = inr reportDir →
  load_report h (flags h this context reportDir)
    (path_join h [reportDir; name this]) w = (inr output, w1) →
  as_KicsSchema output = Some report →
  ∃ res,
    validate h this context w = (inr res, w1)
    ∧ violations res = map (mapFinding h) (KicsSchema.queries report)
    ∧ length (violations res) = length (KicsSchema.queries report)
    ∧ Forall2 (fun f v =>
                 violatingResources v = map (mapFileMatch h) (KicsSchema.files f)
                 ∧ length (violatingResources v) = length (KicsSchema.files f))
        (KicsSchema.queries report) (violations res).
Proof.
  intros Hdir Hload Htyped.
  eexists. split; [by apply validate_typed with reportDir output|].
  simpl. split_and!.
  - done.
  - by rewrite length_map.
  - apply Forall2_fmap_r, Forall_Forall2_diag, Forall_forall.
    intros f _. simpl. by rewrite length_map.
Qed.

Lemma validate_maps_findings_in_order_witness :
  ∃ res,
    validate (scanning_host two_finding_report) sample_validator sample_context
      empty_world = (inr res, scanned_world two_finding_report)
    ∧ violations res
      = map (mapFinding (scanning_host two_finding_report))
          (KicsSchema.queries two_finding_typed)
    ∧ length (violations res) = length (KicsSchema.queries two_finding_typed)
    ∧ Forall2 (fun f v =>
                 violatingResources v
                 = map (mapFileMatch (scanning_host two_finding_report))
                     (KicsSchema.files f)
                 ∧ length (violatingResources v) = length (KicsSchema.files f))
        (KicsSchema.queries two_finding_typed) (violations res).
Proof.
  apply (validate_maps_findings_in_order (scanning_host two_finding_report)
           sample_validator sample_context empty_world "/tmp" two_finding_report
           (scanned_world two_finding_report) two_finding_typed);
    vm_compute; reflexivity.
Defined.

(** C2. On every parsed report of the schema's shape with at least one
    query, [validate] returns [success = false], whatever the severities;
    when the report is one query with two file matches, the result holds
    exactly one violation with exactly two violating resources. *)
Theorem validate_findings_force_failure
    (h : Host) (this : KicsValidator) (context : IValidationContext) (w : World)
    (reportDir : string) (output : jsval) (w1 : World) (report : KicsSchema.t) :
  fs_realpathSync h (files w) (os_tmpdir h) = inr reportDir →
  load_report h (flags h this context reportDir)
    (path_join h [reportDir; name this]) w = (inr output, w1) →
  as_KicsSchema output = Some report →
  KicsSchema.queries report ≠ [] →
  ∃ res,
    validate h this context w = (inr res, w1)
    ∧ success res = false
    ∧ ∀ f, KicsSchema.queries report = [f] →
           length (KicsSchema.files f) = 2 →
           ∃ v, violations res = [v] ∧ length (violatingResources v) = 2.
Proof.
  intros Hdir Hload Htyped Hne.
  eexists. split; [by apply validate_typed with reportDir output|].
  simpl. split.
  - by destruct (KicsSchema.queries report).
  - intros f -> Hlen. eexists. split; [done|].
    simpl. by rewrite length_map.
Qed.

Lemma validate_findings_force_failure_witness :
  ∃ res,
    validate (scanning_host two_match_report) sample_validator sample_context
      empty_world = (inr res, scanned_world two_match_report)
    ∧ success res = false
    ∧ ∀ f, KicsSchema.queries two_match_typed = [f] →
           length (KicsSchema.files f) = 2 →
           ∃ v, violations res = [v] ∧ length (violatingResources v) = 2.
Proof.
  apply (validate_findings_force_failure (scanning_host two_match_report)
           sample_validator sample_context empty_world "/tmp" two_match_report
           (scanned_world two_match_report) two_match_typed);
    [vm_compute; reflexivity .. | discriminate].
Defined.

(** C3. When the process ran and the report was read and parsed with
    [queries] the empty list, [validate] returns [success = true] and no
    violations. *)
Theorem validate_empty_report_succeeds
    (h : Host) (this : KicsValidator) (context : IValidationContext) (w : World)
    (reportDir : string) (output : jsval) (w1 : World) :
  fs_realpathSync h (files w) (os_tmpdir h) = inr reportDir →
  load_report h (flags h this context reportDir)
    (path_join h [reportDir; name this]) w = (inr output, w1) →
  get_prop output "queries" = inr (JArr []) →
  validate h this context w = (inr {| violations := []; success := true |}, w1).
Proof.
  intros Hdir Hload Hqs.
  by rewrite (validate_parsed h this context w reportDir output w1 [] Hdir Hload Hqs).
Qed.

Lemma validate_empty_report_succeeds_witness :
  validate (scanning_host empty_report) sample_validator sample_context empty_world
  = (inr {| violations := []; success := true |}, scanned_world empty_report).
Proof.
  apply (validate_empty_report_succeeds (scanning_host empty_report)
           sample_validator sample_context empty_world "/tmp" empty_report
           (scanned_world empty_report));
    vm_compute; reflexivity.
Defined.

(** C4. When the invocation throws, or the report file is missing after it,
    or its text is not JSON, [validate] still returns a value, and that
    value is [{violations: [], success: false}]; the exception is handed to
    [console.error] and goes no further. *)
Theorem validate_scan_error_caught
    (h : Host) (this : KicsValidator) (context : IValidationContext) (w : World)
    (reportDir : string) (e : exn) :
  fs_realpathSync h (files w) (os_tmpdir h) = inr reportDir →
  scan_error h (flags h this context reportDir)
    (path_join h [reportDir; name this] +:+ ".json") w e →
  ∃ w',
    validate h this context w = (inr {| violations := []; success := false |}, w')
    ∧ console w' = console w ++ [e].
Proof.
  intros Hdir Herr. apply load_report_scan_error in Herr.
  eexists. split; [by apply validate_not_loaded with reportDir|].
  simpl. by rewrite after_exec_console.
Qed.

Lemma validate_scan_error_caught_witness :
  ∃ w',
    validate silent_host sample_validator sample_context empty_world
    = (inr {| violations := []; success := false |}, w')
    ∧ console w' = console empty_world ++ [SystemError "ENOENT"].
Proof.
  apply (validate_scan_error_caught silent_host sample_validator sample_context
           empty_world "/tmp" (SystemError "ENOENT")).
  - reflexivity.
  - apply ReportMissing with () ∅; reflexivity.
Defined.

(** C8. Whatever the host does and however the call ends, a result with
    [success = true] carries no violation. *)
Theorem validate_success_has_no_violations
    (h : Host) (this : KicsValidator) (context : IValidationContext)
    (w w' : World) (res : ValidationPluginReport) :
  validate h this context w = (inr res, w') →
  success res = true →
  violations res = [].
Proof.
  unfold validate, try_block.
  destruct (fs_realpathSync h (files w) (os_tmpdir h)) as [e|reportDir];
    [discriminate|].
  destruct (load_report _ _ _ w) as [[e|output] w1]; simpl.
  { intros [= <- _]. discriminate. }
  destruct (_ <- get_prop output "queries" ;; _) as [e|qs].
  { intros [= <- _]. discriminate. }
  destruct (forEach_query h qs true []) as [[success violations] [e|]] eqn:Hloop.
  { intros [= <- _]. discriminate. }
  intros [= <- _]. simpl. intros ->.
  by apply forEach_query_success in Hloop as (_ & -> & _).
Qed.

Lemma validate_success_has_no_violations_witness :
  validate (scanning_host empty_report) sample_validator sample_context empty_world
  = (inr {| violations := []; success := true |}, scanned_world empty_report)
  ∧ success {| violations := []; success := true |} = true
  ∧ violations {| violations := []; success := true |} = [].
Proof.
  assert (validate (scanning_host empty_report) sample_validator sample_context
            empty_world
          = (inr {| violations := []; success := true |}, scanned_world empty_report))
    as Hrun by (vm_compute; reflexivity).
  split_and!; [exact Hrun | reflexivity |].
  exact (validate_success_has_no_violations _ _ _ _ _ _ Hrun eq_refl).
Defined.

(** A query object without a [files] property makes the callback throw:
    [undefined.map] is a [TypeError]. *)
Lemma violation_of_files_absent (h : Host) (props : list (string * jsval)) :
  own_prop props "files" = JUndefined →
  violation_of h (JObj props)
  = inl (TypeError "Cannot read properties of undefined (reading 'map')").
Proof. intros Hfiles. unfold violation_of. simpl. by rewrite Hfiles. Qed.

(** C9. When the report parses but mapping one of its queries throws, the
    violations pushed for the queries before it stay in the result, which
    has [success = false]; the exception is logged.  So an error result can
    carry violations. *)
Theorem validate_keeps_violations_mapped_before_throw
    (h : Host) (this : KicsValidator) (context : IValidationContext) (w : World)
    (reportDir : string) (output : jsval) (w1 : World)
    (good : list jsval) (bad : jsval) (rest : list jsval)
    (vs : list ValidationViolationResourceAware) (e : exn) :
  fs_realpathSync h (files w) (os_tmpdir h) = inr reportDir →
  load_report h (flags h this context reportDir)
    (path_join h [reportDir; name this]) w = (inr output, w1) →
  get_prop output "queries" = inr (JArr (good ++ bad :: rest)) →
  traverse (violation_of h) good = inr vs →
  violation_of h bad = inl e →
  validate h this context w
  = (inr {| violations := vs; success := false |}, console_error e w1)
  ∧ length vs = length good.
Proof.
  intros Hdir Hload Hqs Hgood Hbad.
  rewrite (validate_parsed h this context w reportDir output w1 _ Hdir Hload Hqs).
  rewrite (forEach_query_throw h good bad rest vs e true [] Hgood Hbad).
  split; [done|]. by apply traverse_length in Hgood.
Qed.

Lemma validate_keeps_violations_mapped_before_throw_witness :
  let h := scanning_host broken_report in
  let kept :=
    [mapFinding h (typed_finding "S3 Bucket Without Versioning" "HIGH"
                     [typed_match "BucketA" "Resources.BucketA"])] in
  let thrown := TypeError "Cannot read properties of undefined (reading 'map')" in
  validate h sample_validator sample_context empty_world
  = (inr {| violations := kept; success := false |},
     console_error thrown (scanned_world broken_report))
  ∧ length kept = 1.
Proof.
  apply (validate_keeps_violations_mapped_before_throw
           (scanning_host broken_report) sample_validator sample_context
           empty_world "/tmp" broken_report (scanned_world broken_report)
           [finding "S3 Bucket Without Versioning" "HIGH" [bucketA]]
           finding_without_files
           [finding "S3 Bucket Logging Disabled" "INFO" [bucketB]]);
    vm_compute; reflexivity.
Defined.

(** * The command line *)

Lemma option_values_pair (flag opt value : string) (rest : list string) :
  String.eqb opt "--ci" = false →
  option_values flag (opt :: value :: rest)
  = (if String.eqb opt flag then [value] else []) ++ option_values flag rest.
Proof. intros Hopt. simpl. rewrite Hopt. by destruct (String.eqb opt flag). Qed.

(** A run of [opt value] pairs, as [flatMap] builds it, yields its values
    under [opt] and nothing under any other option. *)
Lemma option_values_flat_map (flag opt : string) (values rest : list string) :
  String.eqb opt "--ci" = false →
  option_values flag (flat_map (fun value => [opt; value]) values ++ rest)
  = (if String.eqb opt flag then values else []) ++ option_values flag rest.
Proof.
  intros Hopt. induction values as [|value values IH].
  - by destruct (String.eqb opt flag).
  - cbn [flat_map app]. rewrite option_values_pair, IH by done.
    by destruct (String.eqb opt flag).
Qed.

Lemma option_values_optional (flag opt : string) (values : option (list string))
    (rest : list string) :
  String.eqb opt "--ci" = false →
  option_values flag
    (match values with
     | Some values => flat_map (fun value => [opt; value]) values
     | None => []
     end ++ rest)
  = (if String.eqb opt flag then default [] values else []) ++ option_values flag rest.
Proof.
  intros Hopt. destruct values as [values|]; simpl.
  - by apply option_values_flat_map.
  - by destruct (String.eqb opt flag).
Qed.

(** Every option of the command line [validate] builds, with its values. *)
Lemma flag_values_flags (h : Host) (this : KicsValidator)
    (context : IValidationContext) (reportDir flag : string) :
  flag_values flag (flags h this context reportDir)
  = (if String.eqb "--path" flag then templatePaths context else [])
    ++ (if String.eqb "--output-path" flag then [reportDir] else [])
    ++ (if String.eqb "--output-name" flag then [name this] else [])
    ++ (if String.eqb "--libraries-path" flag
        then [path_join h [__dirname h; ".."; "assets"; "libraries"]] else [])
    ++ (if String.eqb "--queries-path" flag
        then [path_join h [__dirname h; ".."; "assets"; "queries"]] else [])
    ++ (if String.eqb "--fail-on" flag then failureSeverities this else [])
    ++ (if String.eqb "--exclude-queries" flag
        then default [] (excludeQueries this) else [])
    ++ (if String.eqb "--exclude-categories" flag
        then default [] (excludeCategories this) else [])
    ++ (if String.eqb "--exclude-severities" flag
        then default [] (excludeSeverities this) else [])
    ++ (if String.eqb "--report-formats" flag then [quoted "json"] else []).
Proof.
  unfold flag_values, flags. cbn [app drop]. rewrite drop_0.
  rewrite option_values_flat_map by done. f_equal.
  rewrite !option_values_pair by done. do 4 f_equal.
  rewrite option_values_flat_map by done. f_equal.
  rewrite !option_values_optional by done. by do 3 f_equal.
Qed.

(** What the constructor stores, when it returns. *)
Lemma new_KicsValidator_fields (h : Host) (props : KicsValidatorProps.t)
    (this : KicsValidator) :
  new_KicsValidator h props = inr this →
  name this = "cdk-validator-kics"
  ∧ excludeQueries this = KicsValidatorProps.excludeQueries props
  ∧ excludeCategories this = KicsValidatorProps.excludeCategories props
  ∧ excludeSeverities this
    = (map Severity_value <$> KicsValidatorProps.excludeSeverities props)
  ∧ failureSeverities this
    = match KicsValidatorProps.failureSeverities props with
      | Some severities => map Severity_value severities
      | None => [Severity_value HIGH; Severity_value MEDIUM]
      end.
Proof.
  unfold new_KicsValidator. destruct (getArch h) as [e|arch]; [discriminate|].
  simpl. by intros [= <-].
Qed.

(** C5. A validator built without [failureSeverities] renders exactly two
    [--fail-on] options, with the values HIGH and MEDIUM, in that order. *)
Theorem default_failureSeverities_render_two_fail_on
    (h : Host) (props : KicsValidatorProps.t) (this : KicsValidator)
    (context : IValidationContext) (reportDir : string) :
  KicsValidatorProps.failureSeverities props = None →
  new_KicsValidator h props = inr this →
  flag_values "--fail-on" (flags h this context reportDir)
  = [Severity_value HIGH; Severity_value MEDIUM]
  ∧ length (flag_values "--fail-on" (flags h this context reportDir)) = 2.
Proof.
  intros Hdefault Hnew.
  apply new_KicsValidator_fields in Hnew as (_ & _ & _ & _ & Hfail).
  rewrite Hdefault in Hfail.
  rewrite flag_values_flags, Hfail. by vm_compute.
Qed.

Lemma default_failureSeverities_render_two_fail_on_witness :
  flag_values "--fail-on"
    (flags (scanning_host empty_report) sample_validator sample_context "/tmp")
  = ["HIGH"; "MEDIUM"]
  ∧ length (flag_values "--fail-on"
              (flags (scanning_host empty_report) sample_validator sample_context
                 "/tmp")) = 2.
Proof.
  apply (default_failureSeverities_render_two_fail_on (scanning_host empty_report)
           KicsValidatorProps.empty sample_validator sample_context "/tmp");
    reflexivity.
Defined.

(** C6. Each of [excludeQueries], [excludeCategories] and
    [excludeSeverities] renders one [--exclude-queries],
    [--exclude-categories] or [--exclude-severities] option per element, in
    input order, and none when the list is absent or empty. *)
Theorem exclusion_lists_render_one_flag_per_element
    (h : Host) (props : KicsValidatorProps.t) (this : KicsValidator)
    (context : IValidationContext) (reportDir : string) :
  new_KicsValidator h props = inr this →
  flag_values "--exclude-queries" (flags h this context reportDir)
  = default [] (KicsValidatorProps.excludeQueries props)
  ∧ flag_values "--exclude-categories" (flags h this context reportDir)
    = default [] (KicsValidatorProps.excludeCategories props)
  ∧ flag_values "--exclude-severities" (flags h this context reportDir)
    = map Severity_value (default [] (KicsValidatorProps.excludeSeverities props)).
Proof.
  intros Hnew.
  apply new_KicsValidator_fields in Hnew as (_ & Hq & Hc & Hs & _).
  rewrite !flag_values_flags, Hq, Hc, Hs.
  cbn [String.eqb Ascii.eqb Bool.eqb app].
  rewrite !app_nil_r. split_and!; [done..|].
  by destruct (KicsValidatorProps.excludeSeverities props).
Qed.

Lemma exclusion_lists_render_one_flag_per_element_witness :
  let commandLine :=
    flags (scanning_host empty_report) excluding_validator sample_context "/tmp" in
  flag_values "--exclude-queries" commandLine
  = ["a227ec01-f97a-4084-91a4-47b350c1db54"; "--fail-on"]
  ∧ flag_values "--exclude-categories" commandLine = []
  ∧ flag_values "--exclude-severities" commandLine = ["LOW"; "INFO"].
Proof.
  apply (exclusion_lists_render_one_flag_per_element (scanning_host empty_report)
           excluding_props excluding_validator sample_context "/tmp").
  reflexivity.
Defined.

(** Once the report directory is resolved, [validate] returns a value and
    has handed exactly one command line, [flags], to [exec]. *)
Lemma validate_spawns (h : Host) (this : KicsValidator)
    (context : IValidationContext) (w : World) (reportDir : string) :
  fs_realpathSync h (files w) (os_tmpdir h) = inr reportDir →
  ∃ res w',
    validate h this context w = (inr res, w')
    ∧ spawned w' = spawned w ++ [flags h this context reportDir].
Proof.
  intros Hdir. unfold validate, try_block. rewrite Hdir. simpl.
  pose proof (load_report_world h (flags h this context reportDir)
                (path_join h [reportDir; name this]) w) as Hworld.
  destruct (load_report _ _ _ w) as [[e|output] w1]; simpl in Hworld; subst w1.
  { do 2 eexists. split; [done|]. simpl. apply after_exec_spawned. }
  destruct (_ <- get_prop output "queries" ;; _) as [e|qs].
  { do 2 eexists. split; [done|]. simpl. apply after_exec_spawned. }
  destruct (forEach_query h qs true []) as [[success violations] [e|]];
    do 2 eexists; (split; [done|]); simpl; apply after_exec_spawned.
Qed.

(** C10. With no template path in the context, [validate] goes on as with
    any other context.  The command line it builds is the usual one with
    nothing in the place of the [--path] options: the binary, [scan], the
    four fixed options, the [--fail-on] and [--exclude-*] options of the
    configuration, [--ci] and the report format.  That command line is
    handed to [exec], whose effect on the files is the one found after the
    call. *)
Theorem validate_empty_templatePaths_still_scans
    (h : Host) (this : KicsValidator) (context : IValidationContext) (w : World)
    (reportDir : string) :
  templatePaths context = [] →
  fs_realpathSync h (files w) (os_tmpdir h) = inr reportDir →
  flag_values "--path" (flags h this context reportDir) = []
  ∧ (∃ res w',
      validate h this context w = (inr res, w')
      ∧ spawned w' = spawned w ++ [flags h this context reportDir])
  ∧ flags h this context reportDir
    = [kics this; "scan";
       "--output-path"; reportDir;
       "--output-name"; name this;
       "--libraries-path"; path_join h [__dirname h; ".."; "assets"; "libraries"];
       "--queries-path"; path_join h [__dirname h; ".."; "assets"; "queries"]]
      ++ flat_map (fun severity => ["--fail-on"; severity]) (failureSeverities this)
      ++ flat_map (fun query => ["--exclude-queries"; query])
           (default [] (excludeQueries this))
      ++ flat_map (fun category => ["--exclude-categories"; category])
           (default [] (excludeCategories this))
      ++ flat_map (fun severity => ["--exclude-severities"; severity])
           (default [] (excludeSeverities this))
      ++ ["--ci"; "--report-formats"; quoted "json"]
  ∧ (∀ context',
       flags h this context' reportDir
       = [kics this; "scan"]
         ++ flat_map (fun template => ["--path"; template]) (templatePaths context')
         ++ drop 2 (flags h this context reportDir))
  ∧ files (validate h this context w).2
    = (exec h (flags h this context reportDir) (files w)).2.
Proof.
  intros Hempty Hdir. split_and!.
  - rewrite flag_values_flags, Hempty. by vm_compute.
  - by apply validate_spawns.
  - unfold flags. rewrite Hempty.
    by destruct (excludeQueries this), (excludeCategories this),
      (excludeSeverities this).
  - intros context'. unfold flags. by rewrite Hempty.
  - destruct (validate_spawns h this context w reportDir Hdir)
      as (res & w' & Hrun & _).
    unfold validate, try_block in Hrun |- *. rewrite Hdir in Hrun |- *.
    simpl in Hrun |- *.
    pose proof (load_report_world h (flags h this context reportDir)
                  (path_join h [reportDir; name this]) w) as Hworld.
    assert (files (after_exec h (flags h this context reportDir) w)
            = (exec h (flags h this context reportDir) (files w)).2) as Hfiles.
    { unfold after_exec, run_exec. by destruct (exec h _ (files w)). }
    destruct (load_report _ _ _ w) as [[e|output] w1]; simpl in Hworld; subst w1;
      [done|].
    destruct (_ <- get_prop output "queries" ;; _) as [e|qs]; [done|].
    by destruct (forEach_query h qs true []) as [[success violations] [e|]].
Qed.

Lemma validate_empty_templatePaths_still_scans_witness :
  let context := {| templatePaths := [] |} in
  let commandLine :=
    ["/opt/plugin/bin/linux_amd64/kics"; "scan";
     "--output-path"; "/tmp";
     "--output-name"; "cdk-validator-kics";
     "--libraries-path"; "/opt/plugin/assets/libraries";
     "--queries-path"; "/opt/plugin/assets/queries";
     "--fail-on"; "HIGH"; "--fail-on"; "MEDIUM";
     "--ci"; "--report-formats"; quoted "json"] in
  flag_values "--path" commandLine = []
  ∧ (∃ res w',
      validate silent_host sample_validator context empty_world = (inr res, w')
      ∧ spawned w' = spawned empty_world ++ [commandLine])
  ∧ flags silent_host sample_validator context "/tmp" = commandLine
  ∧ (∀ context',
       flags silent_host sample_validator context' "/tmp"
       = ["/opt/plugin/bin/linux_amd64/kics"; "scan"]
         ++ flat_map (fun template => ["--path"; template]) (templatePaths context')
         ++ drop 2 commandLine)
  ∧ files (validate silent_host sample_validator context empty_world).2
    = (exec silent_host commandLine (files empty_world)).2.
Proof.
  apply (validate_empty_templatePaths_still_scans silent_host sample_validator
           {| templatePaths := [] |} empty_world "/tmp");
    reflexivity.
Defined.

(** * The constructor *)

Lemma getArch_supported (h : Host) :
  getArch h
  = if supported_arch (os_arch h)
    then inr (if String.eqb (os_arch h) "x64" then "amd64" else "arm64")
    else inl (Error ("Architecture " +:+ os_arch_source h +:+ " is not supported")).
Proof.
  unfold getArch, supported_arch.
  destruct (String.eqb (os_arch h) "x64"); [done|].
  by destruct (String.eqb (os_arch h) "arm64").
Qed.

(** C7. On a host whose architecture is neither x64 nor arm64 the
    constructor throws, and on those two it returns a validator; [validate]
    never looks at the architecture, so no such error can come up during a
    scan. *)
Theorem unsupported_arch_fails_at_construction
    (h : Host) (props : KicsValidatorProps.t) :
  (if supported_arch (os_arch h)
   then ∃ this, new_KicsValidator h props = inr this
   else new_KicsValidator h props
        = inl (Error ("Architecture " +:+ os_arch_source h +:+ " is not supported")))
  ∧ ∀ arch source this context w,
      validate (with_arch arch source h) this context w = validate h this context w.
Proof.
  split; [|intros; reflexivity].
  unfold new_KicsValidator. rewrite getArch_supported.
  destruct (supported_arch (os_arch h)); simpl; eauto.
Qed.

(** * Concrete runs *)

(** The default configuration on a scan that reports one HIGH finding on
    [BucketA]. *)
Example validate_one_high_finding :
  (validate (scanning_host
               (report_of [finding "S3 Bucket Without Versioning" "HIGH" [bucketA]]))
     sample_validator sample_context empty_world).1
  = inr {| violations :=
             [{| fix_ := JStr "https://docs.kics.io";
                 ruleName := JStr "S3 Bucket Without Versioning";
                 description := JStr "S3 bucket without versioning";
                 severity := JStr "HIGH";
                 violatingResources :=
                   [{| resourceLogicalId := JStr "BucketA";
                       templatePath := "/a/template.json";
                       locations := [JStr "Resources.BucketA"] |}] |}];
           success := false |}.
Proof. vm_compute. reflexivity. Qed.

(** The command line of the default configuration for one template. *)
Example flags_default :
  flags (scanning_host empty_report) sample_validator sample_context "/tmp"
  = ["/opt/plugin/bin/linux_amd64/kics"; "scan";
     "--path"; "/a/template.json";
     "--output-path"; "/tmp";
     "--output-name"; "cdk-validator-kics";
     "--libraries-path"; "/opt/plugin/assets/libraries";
     "--queries-path"; "/opt/plugin/assets/queries";
     "--fail-on"; "HIGH"; "--fail-on"; "MEDIUM";
     "--ci"; "--report-formats"; quoted "json"].
Proof. vm_compute. reflexivity. Qed.

Example new_KicsValidator_linux_x64 :
  new_KicsValidator (scanning_host empty_report) KicsValidatorProps.empty
  = inr sample_validator.
Proof. vm_compute. reflexivity. Qed.

Example new_KicsValidator_excluding :
  new_KicsValidator (scanning_host empty_report) excluding_props
  = inr excluding_validator.
Proof. vm_compute. reflexivity. Qed.

Example new_KicsValidator_riscv64 :
  new_KicsValidator
    (with_arch "riscv64" "riscv64" (scanning_host empty_report))
    KicsValidatorProps.empty
  = inl (Error "Architecture riscv64 is not supported").
Proof. vm_compute. reflexivity. Qed.

(** A report that is valid JSON but not an object with [queries]: the loop
    never starts, and the [TypeError] is caught like any other. *)
Example validate_null_report :
  (validate (scanning_host JNull) sample_validator sample_context empty_world).1
  = inr {| violations := []; success := false |}.
Proof. vm_compute. reflexivity. Qed.

(** When [fs.realpathSync] throws, before the [try], the exception leaves
    [validate] and the scanner is not run. *)
Lemma validate_realpath_throws (h : Host) (this : KicsValidator)
    (context : IValidationContext) (w : World) (e : exn) :
  fs_realpathSync h (files w) (os_tmpdir h) = inl e →
  validate h this context w = (inl e, w).
Proof. intros Hdir. unfold validate. by rewrite Hdir. Qed.


(** Any non-empty [queries] array forces failure, well-formed or not: the
    callback clears [success] before it reads anything from the query. *)
Lemma validate_nonempty_queries_fail (h : Host) (this : KicsValidator)
    (context : IValidationContext) (w : World) (reportDir : string)
    (output : jsval) (w1 : World) (q : jsval) (qs : list jsval) :
  fs_realpathSync h (files w) (os_tmpdir h) = inr reportDir →
  load_report h (flags h this context reportDir)
    (path_join h [reportDir; name this]) w = (inr output, w1) →
  get_prop output "queries" = inr (JArr (q :: qs)) →
  ∃ res w', validate h this context w = (inr res, w') ∧ success res = false.
Proof.
  intros Hdir Hload Hqs.
  rewrite (validate_parsed h this context w reportDir output w1 _ Hdir Hload Hqs).
  pose proof (forEach_query_cleared h (q :: qs) []) as Hcleared.
  change (forEach_query h (q :: qs) false []) with (forEach_query h (q :: qs) true [])
    in Hcleared.
  destruct (forEach_query h (q :: qs) true []) as [[success violations] [e|]];
    do 2 eexists; split; done.
Qed.

(** The scanner cannot be started: the spawn error is logged. *)
Example validate_exec_throws :
  validate (linux_host (exec_failing (SystemError "ENOENT")) (parse_table []))
    sample_validator sample_context empty_world
  = (inr {| violations := []; success := false |},
     {| files := ∅;
        spawned := [flags silent_host sample_validator sample_context "/tmp"];
        console := [SystemError "ENOENT"] |}).
Proof. vm_compute. reflexivity. Qed.

(** The report file holds text that is not JSON. *)
Example validate_malformed_report :
  (validate (linux_host (exec_writing report_path "{") (parse_table []))
     sample_validator sample_context empty_world).1
  = inr {| violations := []; success := false |}
  ∧ console (validate (linux_host (exec_writing report_path "{") (parse_table []))
               sample_validator sample_context empty_world).2
    = [SyntaxError "Unexpected token"].
Proof. vm_compute. split; reflexivity. Qed.

(** A file match whose [file_name] is not a string stops the mapping of its
    query: [path.dirname] rejects it. *)
Example validate_file_name_not_string :
  (validate
     (scanning_host
        (report_of [finding "S3 Bucket Without Versioning" "HIGH"
                      [bucketA; JObj [("resource_name", JStr "BucketB")]]]))
     sample_validator sample_context empty_world).1
  = inr {| violations := []; success := false |}.
Proof. vm_compute. reflexivity. Qed.


(** * Further properties of the command line *)

(** Settles which options of [flag_values_flags] carry the asked flag. *)
Ltac decide_options :=
  cbn [String.eqb Ascii.eqb Bool.eqb app]; rewrite ?app_nil_r.

(** One [--path] option per template path, in the order of the context. *)
Theorem flags_one_path_per_template
    (h : Host) (this : KicsValidator) (context : IValidationContext)
    (reportDir : string) :
  flag_values "--path" (flags h this context reportDir) = templatePaths context.
Proof. rewrite flag_values_flags. by decide_options. Qed.

(** A [failureSeverities] list given to the constructor is rendered as it
    is, one [--fail-on] per element in order; an empty list is kept empty
    (the default only replaces an absent list), so no [--fail-on] is
    rendered for it. *)
Theorem supplied_failureSeverities_rendered_verbatim
    (h : Host) (props : KicsValidatorProps.t) (this : KicsValidator)
    (context : IValidationContext) (reportDir : string)
    (severities : list Severity) :
  KicsValidatorProps.failureSeverities props = Some severities →
  new_KicsValidator h props = inr this →
  flag_values "--fail-on" (flags h this context reportDir)
  = map Severity_value severities.
Proof.
  intros Hsupplied Hnew.
  apply new_KicsValidator_fields in Hnew as (_ & _ & _ & _ & Hfail).
  rewrite Hsupplied in Hfail. rewrite flag_values_flags, Hfail.
  by decide_options.
Qed.

Lemma supplied_failureSeverities_rendered_verbatim_witness :
  flag_values "--fail-on"
    (flags (scanning_host empty_report) lenient_validator sample_context "/tmp")
  = [].
Proof.
  apply (supplied_failureSeverities_rendered_verbatim (scanning_host empty_report)
           lenient_props lenient_validator sample_context "/tmp" []);
    reflexivity.
Defined.

(** The scanner is always told to write its report under the resolved
    temporary directory, under the plugin's name and as JSON, and where its
    bundled libraries and queries are. *)
Theorem flags_fixed_options
    (h : Host) (props : KicsValidatorProps.t) (this : KicsValidator)
    (context : IValidationContext) (reportDir : string) :
  new_KicsValidator h props = inr this →
  flag_values "--output-path" (flags h this context reportDir) = [reportDir]
  ∧ flag_values "--output-name" (flags h this context reportDir)
    = ["cdk-validator-kics"]
  ∧ flag_values "--libraries-path" (flags h this context reportDir)
    = [path_join h [__dirname h; ".."; "assets"; "libraries"]]
  ∧ flag_values "--queries-path" (flags h this context reportDir)
    = [path_join h [__dirname h; ".."; "assets"; "queries"]]
  ∧ flag_values "--report-formats" (flags h this context reportDir)
    = [quoted "json"].
Proof.
  intros Hnew. apply new_KicsValidator_fields in Hnew as (Hname & _).
  rewrite !flag_values_flags, Hname. by decide_options.
Qed.

Lemma flags_fixed_options_witness :
  let commandLine :=
    flags (scanning_host empty_report) excluding_validator sample_context "/tmp" in
  flag_values "--output-path" commandLine = ["/tmp"]
  ∧ flag_values "--output-name" commandLine = ["cdk-validator-kics"]
  ∧ flag_values "--libraries-path" commandLine = ["/opt/plugin/assets/libraries"]
  ∧ flag_values "--queries-path" commandLine = ["/opt/plugin/assets/queries"]
  ∧ flag_values "--report-formats" commandLine = [quoted "json"].
Proof.
  apply (flags_fixed_options (scanning_host empty_report) excluding_props
           excluding_validator sample_context "/tmp").
  reflexivity.
Defined.

(** * Further properties of the constructor *)

(** The binary the constructor selects lies under [bin], in the directory
    named after the platform ([windows] for [win32]) and the architecture
    ([amd64] for [x64], [arm64] for [arm64]); it is [kics.exe] on Windows
    and [kics] elsewhere. *)
Theorem constructor_selects_bundled_binary
    (h : Host) (props : KicsValidatorProps.t) (this : KicsValidator) :
  new_KicsValidator h props = inr this →
  kics this
  = path_join h [__dirname h; ".."; "bin";
                 binary_dir (os_platform h) (os_arch h);
                 binary_name (os_platform h)]
  ∧ (os_arch h = "x64" ∨ os_arch h = "arm64").
Proof.
  unfold new_KicsValidator, getArch, binary_dir, binary_name.
  destruct (String.eqb_spec (os_arch h) "x64") as [Hx64|_].
  - simpl. intros [= <-]. simpl. split; [|by left].
    destruct (String.eqb_spec (os_platform h) "win32") as [_|_]; [done|].
    by destruct (String.eqb (os_platform h) "windows").
  - destruct (String.eqb_spec (os_arch h) "arm64") as [Harm|_]; [|discriminate].
    simpl. intros [= <-]. simpl. split; [|by right].
    destruct (String.eqb_spec (os_platform h) "win32") as [_|_]; [done|].
    by destruct (String.eqb (os_platform h) "windows").
Qed.

Lemma constructor_selects_bundled_binary_witness :
  kics windows_arm_validator = "/opt/plugin/bin/windows_arm64/kics.exe"
  ∧ (os_arch windows_arm_host = "x64" ∨ os_arch windows_arm_host = "arm64").
Proof.
  apply (constructor_selects_bundled_binary windows_arm_host
           KicsValidatorProps.empty windows_arm_validator).
  reflexivity.
Defined.

(** * Further properties of [validate] *)

Lemma array_receiver_inr (v : jsval) (method : string) (items : list jsval) :
  array_receiver v method = inr items ↔ v = JArr items.
Proof. destruct v; simpl; split; intros H; by simplify_eq. Qed.

(** [output.queries.forEach] gets to run exactly on an array-valued
    [queries], and every other shape ends in a [TypeError]. *)
Lemma queries_receiver_inr (output : jsval) (qs : list jsval) :
  (queries <- get_prop output "queries" ;; array_receiver queries "forEach") = inr qs
  ↔ get_prop output "queries" = inr (JArr qs).
Proof.
  rewrite bind_result_inr. split.
  - intros (v & Hv & Hitems). apply array_receiver_inr in Hitems. by subst.
  - intros Hqs. exists (JArr qs). done.
Qed.

Lemma queries_receiver_inl (output : jsval) (e : exn) :
  (queries <- get_prop output "queries" ;; array_receiver queries "forEach") = inl e →
  ∃ message, e = TypeError message.
Proof.
  destruct output as [| | | | |?|props]; simpl; try (intros [= <-]; eauto).
  destruct (own_prop props "queries"); simpl; try discriminate;
    intros [= <-]; eauto.
Qed.

(** What the loop leaves behind, whether or not it was cut short: the
    violations of the first [n] queries, where [n] is the position of the
    query whose mapping threw, or the number of queries if none did. *)
Lemma forEach_query_prefix (h : Host) (qs : list jsval) (success : bool)
    (violations : list ValidationViolationResourceAware)
    (success' : bool) (violations' : list ValidationViolationResourceAware)
    (thrown : option exn) :
  forEach_query h qs success violations = (success', violations', thrown) →
  ∃ n mapped,
    traverse (violation_of h) (take n qs) = inr mapped
    ∧ violations' = violations ++ mapped
    ∧ match thrown with
      | None => n = length qs
      | Some e => ∃ bad, qs !! n = Some bad ∧ violation_of h bad = inl e
      end.
Proof.
  revert success violations.
  induction qs as [|q qs IH]; intros success violations.
  - simpl. intros [= <- <- <-]. exists 0, []. by rewrite app_nil_r.
  - simpl. destruct (violation_of h q) as [e|v] eqn:Hq.
    + intros [= <- <- <-]. exists 0, []. rewrite app_nil_r. eauto.
    + intros Hloop. apply IH in Hloop as (n & mapped & Hmapped & -> & Hthrown).
      exists (S n), (v :: mapped). split_and!.
      * simpl. by rewrite Hq, Hmapped.
      * by rewrite <- app_assoc.
      * destruct thrown as [e|]; simpl; [done|by f_equal].
Qed.

(** Once the report directory is resolved, [validate] returns: in the world
    left by [exec] when nothing was thrown, and in that world with one more
    line on the console, and [success = false], when something was. *)
Lemma validate_returns (h : Host) (this : KicsValidator)
    (context : IValidationContext) (w : World) (reportDir : string) :
  fs_realpathSync h (files w) (os_tmpdir h) = inr reportDir →
  ∃ res,
    validate h this context w
    = (inr res, after_exec h (flags h this context reportDir) w)
    ∨ ∃ e,
        validate h this context w
        = (inr res, console_error e (after_exec h (flags h this context reportDir) w))
        ∧ success res = false.
Proof.
  intros Hdir. unfold validate, try_block. rewrite Hdir. simpl.
  pose proof (load_report_world h (flags h this context reportDir)
                (path_join h [reportDir; name this]) w) as Hworld.
  destruct (load_report _ _ _ w) as [[e|output] w1]; simpl in Hworld; subst w1.
  { eexists. right. eauto. }
  destruct (_ <- get_prop output "queries" ;; _) as [e|qs].
  { eexists. right. eauto. }
  destruct (forEach_query h qs true []) as [[success violations] [e|]];
    eexists; [right|left]; eauto.
Qed.

(** An exception leaves [validate] exactly when [fs.realpathSync] throws;
    the scanner is then not run and nothing is logged.  In every other case
    [validate] returns a result, after running the scanner exactly once. *)
Theorem validate_throws_only_from_realpath
    (h : Host) (this : KicsValidator) (context : IValidationContext) (w : World) :
  match fs_realpathSync h (files w) (os_tmpdir h) with
  | inl e => validate h this context w = (inl e, w)
  | inr reportDir =>
      ∃ res w',
        validate h this context w = (inr res, w')
        ∧ spawned w' = spawned w ++ [flags h this context reportDir]
  end.
Proof.
  destruct (fs_realpathSync h (files w) (os_tmpdir h)) as [e|reportDir] eqn:Hdir.
  - by apply validate_realpath_throws.
  - by apply validate_spawns.
Qed.

(** [validate] itself never writes, moves or removes a file: the files
    after the call are those the scanner run left. *)
Theorem validate_leaves_files_to_scanner
    (h : Host) (this : KicsValidator) (context : IValidationContext) (w : World) :
  files (validate h this context w).2
  = match fs_realpathSync h (files w) (os_tmpdir h) with
    | inl _ => files w
    | inr reportDir => (exec h (flags h this context reportDir) (files w)).2
    end.
Proof.
  destruct (fs_realpathSync h (files w) (os_tmpdir h)) as [e|reportDir] eqn:Hdir.
  - by rewrite (validate_realpath_throws h this context w e Hdir).
  - assert (files (after_exec h (flags h this context reportDir) w)
            = (exec h (flags h this context reportDir) (files w)).2) as Hfiles.
    { unfold after_exec, run_exec. by destruct (exec h _ (files w)). }
    destruct (validate_returns h this context w reportDir Hdir)
      as (res & [-> | (e & -> & _)]); done.
Qed.

(** One call logs at most one error, and a call that logs one returns
    [success = false]. *)
Theorem validate_logs_only_on_failure
    (h : Host) (this : KicsValidator) (context : IValidationContext)
    (w w' : World) (res : ValidationPluginReport) :
  validate h this context w = (inr res, w') →
  console w' = console w
  ∨ ∃ e, console w' = console w ++ [e] ∧ success res = false.
Proof.
  intros Hrun.
  destruct (fs_realpathSync h (files w) (os_tmpdir h)) as [e|reportDir] eqn:Hdir.
  { rewrite (validate_realpath_throws h this context w e Hdir) in Hrun.
    discriminate. }
  destruct (validate_returns h this context w reportDir Hdir)
    as (res' & [Hok | (e & Hcaught & Hfailed)]).
  - rewrite Hok in Hrun. injection Hrun as <- <-. left.
    apply after_exec_console.
  - rewrite Hcaught in Hrun. injection Hrun as <- <-. right.
    exists e. simpl. by rewrite after_exec_console.
Qed.

Lemma validate_logs_only_on_failure_witness :
  let thrown := TypeError "Cannot read properties of undefined (reading 'map')" in
  let res :=
    {| violations :=
         [mapFinding (scanning_host broken_report)
            (typed_finding "S3 Bucket Without Versioning" "HIGH"
               [typed_match "BucketA" "Resources.BucketA"])];
       success := false |} in
  let w' := console_error thrown (scanned_world broken_report) in
  console w' = console empty_world
  ∨ ∃ e, console w' = console empty_world ++ [e] ∧ success res = false.
Proof.
  apply (validate_logs_only_on_failure (scanning_host broken_report)
           sample_validator sample_context empty_world).
  vm_compute. reflexivity.
Defined.

(** A result with [success = true] is returned only when the scanner ran
    without throwing, its report was read and parsed, and [queries] was the
    empty array; nothing is logged then. *)
Theorem validate_success_only_on_empty_queries
    (h : Host) (this : KicsValidator) (context : IValidationContext)
    (w w' : World) (res : ValidationPluginReport) :
  validate h this context w = (inr res, w') →
  success res = true →
  ∃ reportDir output,
    fs_realpathSync h (files w) (os_tmpdir h) = inr reportDir
    ∧ load_report h (flags h this context reportDir)
        (path_join h [reportDir; name this]) w = (inr output, w')
    ∧ get_prop output "queries" = inr (JArr [])
    ∧ console w' = console w.
Proof.
  unfold validate, try_block.
  destruct (fs_realpathSync h (files w) (os_tmpdir h)) as [e|reportDir] eqn:Hdir;
    [discriminate|].
  pose proof (load_report_world h (flags h this context reportDir)
                (path_join h [reportDir; name this]) w) as Hworld.
  destruct (load_report _ _ _ w) as [[e|output] w1] eqn:Hload; simpl in Hworld |- *.
  { intros [= <- _]. discriminate. }
  destruct (_ <- get_prop output "queries" ;; _) as [e|qs] eqn:Hqs.
  { intros [= <- _]. discriminate. }
  apply queries_receiver_inr in Hqs.
  destruct (forEach_query h qs true []) as [[success violations] [e|]] eqn:Hloop.
  { intros [= <- _]. discriminate. }
  intros [= <- <-]. simpl. intros ->.
  apply forEach_query_success in Hloop as (-> & _ & _).
  exists reportDir, output. split_and!; [done..|].
  rewrite Hworld. apply after_exec_console.
Qed.

Lemma validate_success_only_on_empty_queries_witness :
  ∃ reportDir output,
    fs_realpathSync (scanning_host empty_report) (files empty_world)
      (os_tmpdir (scanning_host empty_report)) = inr reportDir
    ∧ load_report (scanning_host empty_report)
        (flags (scanning_host empty_report) sample_validator sample_context reportDir)
        (path_join (scanning_host empty_report) [reportDir; name sample_validator])
        empty_world
      = (inr output, scanned_world empty_report)
    ∧ get_prop output "queries" = inr (JArr [])
    ∧ console (scanned_world empty_report) = console empty_world.
Proof.
  apply (validate_success_only_on_empty_queries (scanning_host empty_report)
           sample_validator sample_context empty_world
           (scanned_world empty_report) {| violations := []; success := true |});
    vm_compute; reflexivity.
Defined.

(** A report that parses but whose [queries] is not an array (the report
    is [null], a number, an array, an object without [queries], ...) is an
    error like the others: a [TypeError] is logged and the result is
    [{violations: [], success: false}]. *)
Theorem validate_queries_not_an_array
    (h : Host) (this : KicsValidator) (context : IValidationContext) (w : World)
    (reportDir : string) (output : jsval) (w1 : World) :
  fs_realpathSync h (files w) (os_tmpdir h) = inr reportDir →
  load_report h (flags h this context reportDir)
    (path_join h [reportDir; name this]) w = (inr output, w1) →
  (∀ qs, get_prop output "queries" ≠ inr (JArr qs)) →
  ∃ message,
    validate h this context w
    = (inr {| violations := []; success := false |},
       console_error (TypeError message) w1).
Proof.
  intros Hdir Hload Hshape. unfold validate, try_block.
  rewrite Hdir. simpl. rewrite Hload.
  destruct (_ <- get_prop output "queries" ;; _) as [e|qs] eqn:Hqs.
  - apply queries_receiver_inl in Hqs as (message & ->). eauto.
  - apply queries_receiver_inr in Hqs. by destruct (Hshape qs).
Qed.

Lemma validate_queries_not_an_array_witness :
  let output := JObj [("queries", JObj [("forEach", JNum 1)])] in
  ∃ message,
    validate (scanning_host output) sample_validator sample_context empty_world
    = (inr {| violations := []; success := false |},
       console_error (TypeError message) (scanned_world output)).
Proof.
  apply (validate_queries_not_an_array
           (scanning_host (JObj [("queries", JObj [("forEach", JNum 1)])]))
           sample_validator sample_context empty_world "/tmp"
           (JObj [("queries", JObj [("forEach", JNum 1)])])).
  - reflexivity.
  - vm_compute. reflexivity.
  - intros qs. vm_compute. discriminate.
Defined.

(** Whatever the entries of [queries] are, the violations returned are the
    mapping of an initial segment of them, in order: either of all of them,
    and then nothing is logged, or of those before the first entry whose
    mapping throws, and then that exception is logged and [success] is
    [false].  No entry is skipped and none after a failing one is mapped. *)
Theorem validate_maps_an_initial_segment
    (h : Host) (this : KicsValidator) (context : IValidationContext) (w : World)
    (reportDir : string) (output : jsval) (w1 : World) (qs : list jsval) :
  fs_realpathSync h (files w) (os_tmpdir h) = inr reportDir →
  load_report h (flags h this context reportDir)
    (path_join h [reportDir; name this]) w = (inr output, w1) →
  get_prop output "queries" = inr (JArr qs) →
  ∃ res w' n,
    validate h this context w = (inr res, w')
    ∧ traverse (violation_of h) (take n qs) = inr (violations res)
    ∧ (n = length qs ∧ w' = w1
       ∨ ∃ bad e, qs !! n = Some bad ∧ violation_of h bad = inl e
                  ∧ w' = console_error e w1 ∧ success res = false).
Proof.
  intros Hdir Hload Hqs.
  rewrite (validate_parsed h this context w reportDir output w1 qs Hdir Hload Hqs).
  destruct (forEach_query h qs true []) as [[success violations] thrown] eqn:Hloop.
  apply forEach_query_prefix in Hloop as (n & mapped & Hmapped & -> & Hthrown).
  destruct thrown as [e|].
  - destruct Hthrown as (bad & Hbad & He).
    do 2 eexists. exists n. split_and!; [done..|]. right. eauto 10.
  - do 2 eexists. exists n. split_and!; [done..|]. by left.
Qed.

Lemma validate_maps_an_initial_segment_witness :
  let h := scanning_host broken_report in
  ∃ res w' n,
    validate h sample_validator sample_context empty_world = (inr res, w')
    ∧ traverse (violation_of h)
        (take n [finding "S3 Bucket Without Versioning" "HIGH" [bucketA];
                 finding_without_files;
                 finding "S3 Bucket Logging Disabled" "INFO" [bucketB]])
      = inr (violations res)
    ∧ (n = 3 ∧ w' = scanned_world broken_report
       ∨ ∃ bad e,
           [finding "S3 Bucket Without Versioning" "HIGH" [bucketA];
            finding_without_files;
            finding "S3 Bucket Logging Disabled" "INFO" [bucketB]] !! n = Some bad
           ∧ violation_of h bad = inl e
           ∧ w' = console_error e (scanned_world broken_report)
           ∧ success res = false).
Proof.
  apply (validate_maps_an_initial_segment (scanning_host broken_report)
           sample_validator sample_context empty_world "/tmp" broken_report
           (scanned_world broken_report));
    vm_compute; reflexivity.
Defined.

(** * Further properties of the mapping callbacks *)

(** A file match is mapped exactly when it is an object whose [file_name]
    is a string.  [resource_name] and [search_key] are copied as they are,
    [undefined] when absent, and [locations] always has one element. *)
Theorem violatingResource_of_inr_iff
    (h : Host) (file : jsval) (resource : ViolatingResource) :
  violatingResource_of h file = inr resource
  ↔ ∃ props file_name,
      file = JObj props
      ∧ own_prop props "file_name" = JStr file_name
      ∧ resource
        = {| resourceLogicalId := own_prop props "resource_name";
             templatePath :=
               path_join h [path_dirname h file_name; path_basename h file_name];
             locations := [own_prop props "search_key"] |}.
Proof.
  unfold violatingResource_of. split.
  - destruct file as [| | | | |?|props]; simpl; try discriminate.
    destruct (own_prop props "file_name") as [| | | |file_name| |] eqn:Hname;
      simpl; try discriminate.
    intros [= <-]. eauto.
  - intros (props & file_name & -> & Hname & ->). simpl. by rewrite Hname.
Qed.

(** A query is mapped exactly when it is an object whose [files] is an array
    of file matches that are all mapped.  Its [query_url], [query_name],
    [description] and [severity] are copied as they are, [undefined] when
    absent: a missing one throws nothing. *)
Theorem violation_of_inr_iff
    (h : Host) (query : jsval) (violation : ValidationViolationResourceAware) :
  violation_of h query = inr violation
  ↔ ∃ props items resources,
      query = JObj props
      ∧ own_prop props "files" = JArr items
      ∧ traverse (violatingResource_of h) items = inr resources
      ∧ violation
        = {| fix_ := own_prop props "query_url";
             ruleName := own_prop props "query_name";
             description := own_prop props "description";
             severity := own_prop props "severity";
             violatingResources := resources |}.
Proof.
  unfold violation_of. split.
  - destruct query as [| | | | |?|props]; simpl; try discriminate.
    destruct (own_prop props "files") as [| | | | |items|] eqn:Hfiles;
      simpl; try discriminate.
    destruct (traverse (violatingResource_of h) items) as [e|resources] eqn:Hitems;
      simpl; try discriminate.
    intros [= <-]. eauto 10.
  - intros (props & items & resources & -> & Hfiles & Hitems & ->). simpl.
    rewrite Hfiles. simpl. by rewrite Hitems.
Qed.




(** One file match that cannot be mapped makes the whole query throw, so
    the file matches of that query that could be mapped are not reported
    either. *)
Theorem violation_of_bad_file_match
    (h : Host) (props : list (string * jsval))
    (good : list jsval) (bad : jsval) (rest : list jsval)
    (resources : list ViolatingResource) (e : exn) :
  own_prop props "files" = JArr (good ++ bad :: rest) →
  traverse (violatingResource_of h) good = inr resources →
  violatingResource_of h bad = inl e →
  violation_of h (JObj props) = inl e.
Proof.
  intros Hfiles Hgood Hbad. unfold violation_of. simpl. rewrite Hfiles. simpl.
  assert (traverse (violatingResource_of h) (good ++ bad :: rest) = inl e) as ->;
    [|done].
  clear Hfiles. revert resources Hgood.
  induction good as [|file good IH]; intros resources Hgood.
  - simpl. by rewrite Hbad.
  - apply traverse_inr_cons in Hgood as (r & rs & Hfile & Hrs & _).
    simpl. rewrite Hfile. simpl. by rewrite (IH _ Hrs).
Qed.

Lemma violation_of_bad_file_match_witness :
  violation_of (scanning_host empty_report)
    (finding "S3 Bucket Without Versioning" "HIGH"
       [bucketA; JObj [("resource_name", JStr "BucketB")]; bucketB])
  = inl (TypeError "The path argument must be of type string").
Proof.
  apply (violation_of_bad_file_match (scanning_host empty_report) _
           [bucketA] (JObj [("resource_name", JStr "BucketB")]) [bucketB]
           [mapFileMatch (scanning_host empty_report)
              (typed_match "BucketA" "Resources.BucketA")]);
    reflexivity.
Defined.

(** * The report file across runs *)

(** [validate] does not check that the report it reads was written by the
    run it just made, and does not remove the file beforehand: when the
    scanner returns without touching the files, a report already at the
    path is read and its findings are returned. *)
Theorem validate_reads_report_left_by_earlier_run
    (h : Host) (this : KicsValidator) (context : IValidationContext) (w : World)
    (reportDir : string) (u : unit) (text : string) (output : jsval)
    (report : KicsSchema.t) :
  fs_realpathSync h (files w) (os_tmpdir h) = inr reportDir →
  exec h (flags h this context reportDir) (files w) = (inr u, files w) →
  files w !! (path_join h [reportDir; name this] +:+ ".json") = Some text →
  JSON_parse h text = inr output →
  as_KicsSchema output = Some report →
  ∃ w',
    validate h this context w
    = (inr {| violations := map (mapFinding h) (KicsSchema.queries report);
              success := match KicsSchema.queries report with
                         | [] => true
                         | _ => false
                         end |}, w')
    ∧ files w' = files w.
Proof.
  intros Hdir Hexec Hfile Hparse Htyped.
  eexists. split.
  - apply validate_typed with reportDir output; [done| |done].
    unfold load_report, run_exec, fs_readFileSync. rewrite Hexec. simpl.
    rewrite Hfile. simpl. by rewrite Hparse.
  - done.
Qed.

Lemma validate_reads_report_left_by_earlier_run_witness :
  ∃ w',
    validate idle_host sample_validator sample_context stale_world
    = (inr {| violations :=
                map (mapFinding idle_host) (KicsSchema.queries two_match_typed);
              success := false |}, w')
    ∧ files w' = files stale_world.
Proof.
  apply (validate_reads_report_left_by_earlier_run idle_host sample_validator
           sample_context stale_world "/tmp" () "report" two_match_report
           two_match_typed);
    vm_compute; reflexivity.
Defined.
